(** * Compile-time member detection (sample/type_introspection.cpp)

    The program is a translation unit of templates and static assertions:
    its behaviour is the outcome of template substitution.  The templates
    are embedded as Rocq functions over a small model of the C++ types and
    class declarations the probes inspect.  A substitution has three
    outcomes: the type (or constant) it denotes, a substitution failure in
    the immediate context (which discards a partial specialization), or an
    error outside the immediate context (which stops the compilation). *)

From Stdlib Require Import String List Bool.
Import ListNotations.
Open Scope string_scope.

Set Implicit Arguments.

(** ** Types of the fragment *)

Module Cxx.

(** Object types: [void], [int], [unsigned long] (the library's
    [std::size_t]), [std::nullptr_t], class types named by their
    template-id, and pointers with the constness of the pointee. *)
Inductive obj_type : Type :=
| Void
| Int
| ULong
| NullPtrT
| Class (id : string)
| Ptr (pointee : obj_type) (pointee_const : bool).

Inductive ref_kind : Type := NoRef | LRef | RRef.

(** A type is an object type, its top-level [const], and whether it is a
    reference: every type of the fragment has exactly one such form. *)
Record type : Type := mkType {
  base : obj_type;
  is_const : bool;
  ref : ref_kind
}.

Definition plain (b : obj_type) : type := mkType b false NoRef.
Definition TVoid : type := plain Void.
Definition TInt : type := plain Int.
Definition TSize : type := plain ULong.
Definition TClass (id : string) : type := plain (Class id).
Definition const_lref (b : obj_type) : type := mkType b true LRef.
Definition lref (b : obj_type) : type := mkType b false LRef.
Definition rref (b : obj_type) : type := mkType b false RRef.

Fixpoint obj_type_eqb (a b : obj_type) : bool :=
  match a, b with
  | Void, Void | Int, Int | ULong, ULong | NullPtrT, NullPtrT => true
  | Class x, Class y => String.eqb x y
  | Ptr p c, Ptr q d => obj_type_eqb p q && Bool.eqb c d
  | _, _ => false
  end.

Definition ref_kind_eqb (a b : ref_kind) : bool :=
  match a, b with
  | NoRef, NoRef | LRef, LRef | RRef, RRef => true
  | _, _ => false
  end.

Definition type_eqb (a b : type) : bool :=
  obj_type_eqb (base a) (base b)
  && Bool.eqb (is_const a) (is_const b)
  && ref_kind_eqb (ref a) (ref b).

(** ** Outcome of a substitution *)

Inductive subst (A : Type) : Type :=
| WellFormed (a : A)
| Failure
| HardError.

Arguments Failure {A}.
Arguments HardError {A}.

Definition bind {A B : Type} (m : subst A) (k : A -> subst B) : subst B :=
  match m with
  | WellFormed a => k a
  | Failure => Failure
  | HardError => HardError
  end.

Notation "x <- m ;; k" := (bind m (fun x => k))
  (at level 61, m at next level, right associativity).

Definition require (b : bool) : subst unit :=
  if b then WellFormed tt else Failure.

(** A pack of template arguments is substituted left to right. *)
Fixpoint sequence {A : Type} (ms : list (subst A)) : subst (list A) :=
  match ms with
  | [] => WellFormed []
  | m :: rest => a <- m ;; l <- sequence rest ;; WellFormed (a :: l)
  end.

(** ** Class declarations *)

Inductive access : Type := Public | Private.

Record member_function : Type := mkFn {
  mf_params : list type;
  mf_ret : type;
  mf_const : bool;
  mf_deleted : bool;
  mf_access : access
}.

(** What a member name denotes: a nested type, a non-static data member, or
    a set of overloaded member functions. *)
Inductive member : Type :=
| NestedType (acc : access) (t : type)
| DataMember (acc : access) (t : type)
| Functions (overloads : list member_function).

(** [copy_constructible]: an object of the class can be initialized from
    an lvalue or a const rvalue of the class; [move_constructible]: from a
    non-const rvalue (by a move constructor, or by the copy constructor of
    a class that declares no move constructor). *)
Record class_info : Type := mkClass {
  members : list (string * member);
  copy_constructible : bool;
  move_constructible : bool
}.

(** The complete class types of the translation unit. *)
Definition class_table : Type := list (string * class_info).

Fixpoint assoc {A : Type} (k : string) (l : list (string * A)) : option A :=
  match l with
  | [] => None
  | (k', v) :: rest => if String.eqb k k' then Some v else assoc k rest
  end.

Definition lookup_class (ct : class_table) (t : obj_type) : subst class_info :=
  match t with
  | Class id =>
      match assoc id ct with
      | Some c => WellFormed c
      | None => Failure
      end
  | _ => Failure
  end.

Definition lookup_member (c : class_info) (name : string) : subst member :=
  match assoc name (members c) with
  | Some m => WellFormed m
  | None => Failure
  end.

Definition accessible (a : access) : bool :=
  match a with Public => true | Private => false end.

(** [typename C::name] inside a class [C] that is already looked up. *)
Definition member_type (c : class_info) (name : string) : subst type :=
  m <- lookup_member c name ;;
  match m with
  | NestedType acc t => _ <- require (accessible acc) ;; WellFormed t
  | _ => Failure
  end.

(** [typename T::name]: [T] must be a complete class type. *)
Definition nested_type (ct : class_table) (T : type) (name : string)
  : subst type :=
  match ref T with
  | NoRef => c <- lookup_class ct (base T) ;; member_type c name
  | _ => Failure
  end.

(** [T const]: a reference type ignores the qualifier. *)
Definition add_const (T : type) : type :=
  match ref T with
  | NoRef => mkType (base T) true NoRef
  | _ => T
  end.

(** [T&]: no reference to [void]; a reference to a reference collapses. *)
Definition add_lvalue_reference (T : type) : subst type :=
  match ref T, base T with
  | NoRef, Void => Failure
  | _, _ => WellFormed (mkType (base T) (is_const T) LRef)
  end.

(** ** Expressions of the unevaluated operands *)

Inductive value_category : Type := Lvalue | Xvalue | Prvalue.

Record expr : Type := mkExpr {
  e_base : obj_type;
  e_const : bool;
  e_cat : value_category
}.

Definition is_lvalue (x : expr) : bool :=
  match e_cat x with Lvalue => true | _ => false end.

Definition is_class (b : obj_type) : bool :=
  match b with Class _ => true | _ => false end.

(** The expression a function call or a cast to [t] is: a prvalue of
    non-class type has no cv-qualifier. *)
Definition expr_of_type (t : type) : expr :=
  match ref t with
  | LRef => mkExpr (base t) (is_const t) Lvalue
  | RRef => mkExpr (base t) (is_const t) Xvalue
  | NoRef => mkExpr (base t) (is_const t && is_class (base t)) Prvalue
  end.

(** [std::declval<T>()] returns [T&&] after reference collapsing, and
    [void] for [void]. *)
Definition declval (T : type) : expr :=
  match ref T, base T with
  | LRef, _ => mkExpr (base T) (is_const T) Lvalue
  | NoRef, Void => mkExpr Void false Prvalue
  | _, _ => mkExpr (base T) (is_const T) Xvalue
  end.

(** [decltype(e)] for an expression that is not a plain member access. *)
Definition decltype (e : expr) : type :=
  match e_cat e with
  | Lvalue => mkType (e_base e) (e_const e) LRef
  | Xvalue => mkType (e_base e) (e_const e) RRef
  | Prvalue => mkType (e_base e) (e_const e) NoRef
  end.

(** The declared type of the accessible data member [x.name]; a name that
    denotes a nested type or member functions is not an operand. *)
Definition data_member (ct : class_table) (x : expr) (name : string)
  : subst type :=
  c <- lookup_class ct (e_base x) ;;
  m <- lookup_member c name ;;
  match m with
  | DataMember acc t => _ <- require (accessible acc) ;; WellFormed t
  | _ => Failure
  end.

(** [decltype(x.name)], unparenthesized: the declared type of the member. *)
Definition decltype_member (ct : class_table) (x : expr) (name : string)
  : subst type :=
  data_member ct x name.

(** The expression [x.name] for a data member of declared type [t]. *)
Definition member_expr (x : expr) (t : type) : expr :=
  match ref t with
  | NoRef => mkExpr (base t) (is_const t || e_const x)
               (if is_lvalue x then Lvalue else Xvalue)
  | _ => mkExpr (base t) (is_const t) Lvalue
  end.

(** ** Implicit conversions and overload resolution

    The fragment has the standard conversions between its types and the
    binding of references.  It has no user-defined conversions, base
    classes, default arguments, member templates, and no static,
    ref-qualified or variadic member functions. *)

Definition arithmetic (b : obj_type) : bool :=
  match b with Int | ULong => true | _ => false end.

(** The rank of a standard conversion (the fragment has no promotion). *)
Inductive rank : Type := ExactMatch | Conversion.

Definition rank_lt (r1 r2 : rank) : bool :=
  match r1, r2 with
  | ExactMatch, Conversion => true
  | _, _ => false
  end.

(** The standard conversion between two object types: whether it is the
    identity, and its rank.  A pointer conversion that adds [const] to the
    pointee is an exact match and not the identity. *)
Definition converts (from to : obj_type) : option (bool * rank) :=
  if obj_type_eqb from to then Some (true, ExactMatch)
  else match from, to with
       | Ptr p c, Ptr q d =>
           if obj_type_eqb p q && negb c && d then Some (false, ExactMatch)
           else None
       | NullPtrT, Ptr _ _ => Some (false, Conversion)
       | _, _ =>
           if arithmetic from && arithmetic to then Some (false, Conversion)
           else None
       end.

(** An implicit conversion sequence, with what overload resolution
    compares: whether it is the identity, its rank and, for a parameter of
    reference type, the kind of the reference, the constness and the type
    of what it refers to. *)
Record conversion : Type := mkConv {
  cv_identity : bool;
  cv_rank : rank;
  cv_binding : option (ref_kind * bool * obj_type)
}.

(** The conversion of the argument [a] to the parameter type [P], if there
    is one.  A reference binds directly to an argument of its type, which
    is the identity; a reference to [const] or an rvalue reference to
    another non-class type binds to a converted temporary.  An argument of
    the class type of a by-value parameter is the identity as well: whether
    the parameter can be constructed is checked on the selected function. *)
Definition conversion_sequence (a : expr) (P : type) : option conversion :=
  let same := obj_type_eqb (e_base a) (base P) in
  let bound := Some (ref P, is_const P, base P) in
  let through_temporary :=
    if is_class (base P) then None
    else match converts (e_base a) (base P) with
         | Some (i, r) => Some (mkConv i r bound)
         | None => None
         end in
  match ref P with
  | NoRef =>
      match base P with
      | Void => None
      | Class _ => if same then Some (mkConv true ExactMatch None) else None
      | _ =>
          match converts (e_base a) (base P) with
          | Some (i, r) => Some (mkConv i r None)
          | None => None
          end
      end
  | LRef =>
      if same then
        if is_const P || (is_lvalue a && negb (e_const a))
        then Some (mkConv true ExactMatch bound) else None
      else if is_const P then through_temporary else None
  | RRef =>
      if same then
        if negb (is_lvalue a) && implb (e_const a) (is_const P)
        then Some (mkConv true ExactMatch bound) else None
      else through_temporary
  end.

(** The implicit object parameter of a member function: a reference to the
    class, to [const] for a [const] member function, that also binds to an
    rvalue. *)
Definition object_conversion (obj : expr) (f : member_function)
  : option conversion :=
  if mf_const f then Some (mkConv true ExactMatch (Some (LRef, true, e_base obj)))
  else if e_const obj then None
  else Some (mkConv true ExactMatch (Some (LRef, false, e_base obj))).

Fixpoint args_conversions (args : list expr) (params : list type)
  : option (list conversion) :=
  match args, params with
  | [], [] => Some []
  | a :: args', p :: params' =>
      match conversion_sequence a p, args_conversions args' params' with
      | Some r, Some rs => Some (r :: rs)
      | _, _ => None
      end
  | _, _ => None
  end.

(** The conversions of a viable function: of the object, then of each
    argument. *)
Definition candidate_conversions (obj : expr) (args : list expr)
  (f : member_function) : option (list conversion) :=
  match object_conversion obj f, args_conversions args (mf_params f) with
  | Some r, Some rs => Some (r :: rs)
  | _, _ => None
  end.

Fixpoint viable (obj : expr) (args : list expr) (fs : list member_function)
  : list (member_function * list conversion) :=
  match fs with
  | [] => []
  | f :: rest =>
      match candidate_conversions obj args f with
      | Some r => (f, r) :: viable obj args rest
      | None => viable obj args rest
      end
  end.

Inductive ordering : Type := Better | Worse | Indistinguishable.

(** Two reference bindings: an rvalue reference is better than an lvalue
    reference; otherwise, when they refer to the same type, the one that
    refers to the less qualified type is better. *)
Definition compare_bindings (b1 b2 : option (ref_kind * bool * obj_type))
  : ordering :=
  match b1, b2 with
  | Some (k1, c1, t1), Some (k2, c2, t2) =>
      match k1, k2 with
      | RRef, LRef => Better
      | LRef, RRef => Worse
      | _, _ =>
          if obj_type_eqb t1 t2 then
            if negb c1 && c2 then Better
            else if c1 && negb c2 then Worse
            else Indistinguishable
          else Indistinguishable
      end
  | _, _ => Indistinguishable
  end.

(** The identity is better than any other conversion, then a better rank
    decides, then the reference bindings.  A by-value parameter and a
    reference bound to the same argument are indistinguishable. *)
Definition compare_conversions (s1 s2 : conversion) : ordering :=
  if cv_identity s1 && negb (cv_identity s2) then Better
  else if cv_identity s2 && negb (cv_identity s1) then Worse
  else if rank_lt (cv_rank s1) (cv_rank s2) then Better
  else if rank_lt (cv_rank s2) (cv_rank s1) then Worse
  else compare_bindings (cv_binding s1) (cv_binding s2).

Fixpoint none_worse (r1 r2 : list conversion) : bool :=
  match r1, r2 with
  | x :: r1', y :: r2' =>
      match compare_conversions x y with
      | Worse => false
      | _ => none_worse r1' r2'
      end
  | _, _ => true
  end.

Fixpoint some_better (r1 r2 : list conversion) : bool :=
  match r1, r2 with
  | x :: r1', y :: r2' =>
      match compare_conversions x y with
      | Better => true
      | _ => some_better r1' r2'
      end
  | _, _ => false
  end.

(** No conversion is worse and one is better. *)
Definition better (r1 r2 : list conversion) : bool :=
  none_worse r1 r2 && some_better r1 r2.

(** The viable function that is better than every other one, if any. *)
Fixpoint select_best (seen rest : list (member_function * list conversion))
  : option member_function :=
  match rest with
  | [] => None
  | (f, r) :: rest' =>
      if forallb (fun c => better r (snd c)) (seen ++ rest') then Some f
      else select_best (seen ++ [(f, r)]) rest'
  end.

(** Initialization of an object of class type [id] from [a] of that type:
    from a non-const rvalue it is a move, otherwise a copy. *)
Definition constructs (ct : class_table) (id : string) (a : expr) : bool :=
  match assoc id ct with
  | Some c =>
      if is_lvalue a || e_const a then copy_constructible c
      else move_constructible c
  | None => false
  end.

(** The parameters of class type passed by value are constructed from
    their arguments. *)
Fixpoint initializes (ct : class_table) (args : list expr)
  (params : list type) : bool :=
  match args, params with
  | a :: args', P :: params' =>
      match ref P, base P with
      | NoRef, Class id => constructs ct id a
      | _, _ => true
      end && initializes ct args' params'
  | _, _ => true
  end.

(** Overload resolution: the best viable function is selected first, and
    the call is ill-formed when the selected one is deleted or
    inaccessible, or when a parameter cannot be constructed. *)
Definition resolve (ct : class_table) (fs : list member_function)
  (obj : expr) (args : list expr) : subst member_function :=
  match select_best [] (viable obj args fs) with
  | Some f =>
      _ <- require (negb (mf_deleted f) && accessible (mf_access f)) ;;
      _ <- require (initializes ct args (mf_params f)) ;;
      WellFormed f
  | None => Failure
  end.

Definition call_operator (ct : class_table) (callee : expr) (op : string)
  (args : list expr) : subst expr :=
  c <- lookup_class ct (e_base callee) ;;
  m <- lookup_member c op ;;
  match m with
  | Functions fs =>
      f <- resolve ct fs callee args ;; WellFormed (expr_of_type (mf_ret f))
  | _ => Failure
  end.

(** [x.name(args)]: a call of a member function, or of a data member whose
    class type has a function call operator. *)
Definition member_call (ct : class_table) (x : expr) (name : string)
  (args : list expr) : subst expr :=
  c <- lookup_class ct (e_base x) ;;
  m <- lookup_member c name ;;
  match m with
  | Functions fs =>
      f <- resolve ct fs x args ;; WellFormed (expr_of_type (mf_ret f))
  | DataMember acc t =>
      _ <- require (accessible acc) ;;
      call_operator ct (member_expr x t) "operator()" args
  | NestedType _ _ => Failure
  end.

(** [l = r]: the class's [operator=] for a class type; otherwise the
    built-in assignment, whose left operand is a modifiable lvalue. *)
Definition assign (ct : class_table) (l r : expr) : subst expr :=
  match e_base l with
  | Class _ => call_operator ct l "operator=" [r]
  | Void => Failure
  | b =>
      _ <- require (is_lvalue l && negb (e_const l)) ;;
      match converts (e_base r) b with
      | Some _ => WellFormed (mkExpr b false Lvalue)
      | None => Failure
      end
  end.

End Cxx.

Import Cxx.

(** ** namespace meta *)

Module meta.

(** A class template with a parameter pack, as the class each
    specialization is. *)
Definition class_template : Type := list type -> class_info.

(** [struct apply { using type = typename MetaFunction<Args...>::type; }]:
    the alias is declared in the body of [apply], so a [MetaFunction] with
    no member [type] is an error of the instantiation of [apply], outside
    the immediate context of whoever names [apply<...>::type]. *)
Definition apply (MetaFunction : class_template) (Args : list type)
  : subst class_info :=
  match member_type (MetaFunction Args) "type" with
  | WellFormed t => WellFormed (mkClass [("type", NestedType Public t)] true true)
  | _ => HardError
  end.

Definition apply_t (MetaFunction : class_template) (Args : list type)
  : subst type :=
  c <- apply MetaFunction Args ;; member_type c "type".

Module detail.

Definition voider : class_template :=
  fun _ => mkClass [("type", NestedType Public TVoid)] true true.

End detail.

(** [void_t<Ts...>]: the arguments are type expressions of the caller and
    may themselves fail to denote a type. *)
Definition void_t (Ts : list (subst type)) : subst type :=
  Args <- sequence Ts ;; apply_t detail.voider Args.

(** A probe is a template of one type parameter. *)
Definition probe : Type := type -> subst type.

(** [has_member<Member, Tp, V>::value].  The partial specialization
    [has_member<Member, Tp, void_t<Member<Tp>>>] is [true_type]: it is
    discarded when substituting into its argument list fails, and matches
    when its third argument is [V]; the primary template is [false_type]. *)
Definition has_member (Member : probe) (Tp V : type) : subst bool :=
  match void_t [Member Tp] with
  | WellFormed marker => WellFormed (type_eqb marker V)
  | Failure => WellFormed false
  | HardError => HardError
  end.

(** [has_member<Member, Tp>::value]: the third argument defaults to
    [meta::void_t<>]. *)
Definition has_member_default (Member : probe) (Tp : type) : subst bool :=
  V <- void_t [] ;; has_member Member Tp V.

End meta.

(** ** The probes *)

Definition ValueType (ct : class_table) (Tp : type) : subst type :=
  nested_type ct Tp "value_type".

Definition has_value_type (ct : class_table) (Tp : type) : subst bool :=
  meta.has_member_default (ValueType ct) Tp.

Module detail.

(** [decltype(std::declval<Tp>().data)] *)
Definition InspectDataProperty (ct : class_table) (Tp : type) : subst type :=
  decltype_member ct (declval Tp) "data".

(** [decltype(std::declval<Tp>().reserve(
       std::declval<typename Tp::size_type>()))] *)
Definition InspectReserve (ct : class_table) (Tp : type) : subst type :=
  size_type <- nested_type ct Tp "size_type" ;;
  r <- member_call ct (declval Tp) "reserve" [declval size_type] ;;
  WellFormed (decltype r).

(** [decltype(std::declval<Tp>() = std::declval<Tp const&>())] *)
Definition InspectCopyAssignable (ct : class_table) (Tp : type) : subst type :=
  Tp_const_ref <- add_lvalue_reference (add_const Tp) ;;
  r <- assign ct (declval Tp) (declval Tp_const_ref) ;;
  WellFormed (decltype r).

End detail.

Definition has_data_property (ct : class_table) (Tp : type) : subst bool :=
  meta.has_member_default (detail.InspectDataProperty ct) Tp.

Definition has_reserve (ct : class_table) (Tp : type) : subst bool :=
  meta.has_member_default (detail.InspectReserve ct) Tp.

Definition is_copy_assignable (ct : class_table) (Tp : type) : subst bool :=
  meta.has_member_default (detail.InspectCopyAssignable ct) Tp.

(** ** The classes of the translation unit *)

Definition method (params : list type) (ret : type) : member_function :=
  mkFn params ret false false Public.

Definition const_method (params : list type) (ret : type) : member_function :=
  mkFn params ret true false Public.

Definition deleted (params : list type) (ret : type) : member_function :=
  mkFn params ret false true Public.

(** The copy and move assignment operators a class declares implicitly
    when all its members can be assigned: it has no const or reference
    member and no member whose own assignment is deleted, as is the case
    of the classes of the file. *)
Definition implicit_assignment (id : string) : string * member :=
  ("operator=",
   Functions [method [const_lref (Class id)] (lref (Class id));
              method [rref (Class id)] (lref (Class id))]).

(** [struct TypeWithPublicData { int data; };] *)
Definition TypeWithPublicData : class_info :=
  mkClass [("data", DataMember Public TInt);
           implicit_assignment "TypeWithPublicData"] true true.

(** [struct TypeWithPrivateData { private: int data; };] *)
Definition TypeWithPrivateData : class_info :=
  mkClass [("data", DataMember Private TInt);
           implicit_assignment "TypeWithPrivateData"] true true.

(** The library classes are declared by <vector>, <utility>, <array>,
    <memory> and <initializer_list>, which the file includes and the
    repository does not hold. *)
Module std.

(** Modelled from the spec: the declaration of [std::vector<int>], missing from
    the repository: a nested value-type alias, a size unit, [reserve] taking it, no field [data] (the name denotes member functions), and copy assignment.  The
    signatures are those of the ISO C++14 synopsis, member templates left
    out. *)
Definition vector_int : class_info :=
  mkClass
    [("value_type", NestedType Public TInt);
     ("size_type", NestedType Public TSize);
     ("reference", NestedType Public (lref Int));
     ("const_reference", NestedType Public (const_lref Int));
     ("operator=",
      Functions [method [const_lref (Class "std::vector<int>")]
                        (lref (Class "std::vector<int>"));
                 method [rref (Class "std::vector<int>")]
                        (lref (Class "std::vector<int>"));
                 method [TClass "std::initializer_list<int>"]
                        (lref (Class "std::vector<int>"))]);
     ("size", Functions [const_method [] TSize]);
     ("capacity", Functions [const_method [] TSize]);
     ("reserve", Functions [method [TSize] TVoid]);
     ("data", Functions [method [] (plain (Ptr Int false));
                         const_method [] (plain (Ptr Int true))])]
    true true.

(** Modelled from the spec: the declaration of [std::pair<int, int>], missing from
    the repository: no nested value-type alias, and copy assignment.  The
    signatures are those of the ISO C++14 synopsis, member templates left
    out. *)
Definition pair_int_int : class_info :=
  mkClass
    [("first_type", NestedType Public TInt);
     ("second_type", NestedType Public TInt);
     ("first", DataMember Public TInt);
     ("second", DataMember Public TInt);
     implicit_assignment "std::pair<int,int>"]
    true true.

(** Modelled from the spec: the declaration of [std::array<int, 10>], missing from
    the repository: a size unit and no [reserve].  The
    signatures are those of the ISO C++14 synopsis, member templates left
    out. *)
Definition array_int_10 : class_info :=
  mkClass
    [("value_type", NestedType Public TInt);
     ("size_type", NestedType Public TSize);
     ("reference", NestedType Public (lref Int));
     ("const_reference", NestedType Public (const_lref Int));
     implicit_assignment "std::array<int,10>";
     ("size", Functions [const_method [] TSize]);
     ("max_size", Functions [const_method [] TSize]);
     ("data", Functions [method [] (plain (Ptr Int false));
                         const_method [] (plain (Ptr Int true))])]
    true true.

(** Modelled from the spec: the declaration of [std::unique_ptr<int>], missing from
    the repository: assignment from a read-only reference suppressed.  The
    signatures are those of the ISO C++14 synopsis, member templates left
    out. *)
Definition unique_ptr_int : class_info :=
  mkClass
    [("pointer", NestedType Public (plain (Ptr Int false)));
     ("element_type", NestedType Public TInt);
     ("operator=",
      Functions [method [rref (Class "std::unique_ptr<int>")]
                        (lref (Class "std::unique_ptr<int>"));
                 method [plain NullPtrT]
                        (lref (Class "std::unique_ptr<int>"));
                 deleted [const_lref (Class "std::unique_ptr<int>")]
                         (lref (Class "std::unique_ptr<int>"))]);
     ("get", Functions [const_method [] (plain (Ptr Int false))]);
     ("release", Functions [method [] (plain (Ptr Int false))]);
     ("reset", Functions [method [plain (Ptr Int false)] TVoid])]
    false true.

(** Modelled from the spec: the declaration of [std::initializer_list<int>], missing from
    the repository: the parameter type of an assignment of the dynamic array.  The
    signatures are those of the ISO C++14 synopsis, member templates left
    out. *)
Definition initializer_list_int : class_info :=
  mkClass
    [("value_type", NestedType Public TInt);
     ("size_type", NestedType Public TSize);
     implicit_assignment "std::initializer_list<int>";
     ("size", Functions [const_method [] TSize])]
    true true.

End std.

Definition classes : class_table :=
  [("std::vector<int>", std.vector_int);
   ("std::pair<int,int>", std.pair_int_int);
   ("std::array<int,10>", std.array_int_10);
   ("std::unique_ptr<int>", std.unique_ptr_int);
   ("std::initializer_list<int>", std.initializer_list_int);
   ("TypeWithPublicData", TypeWithPublicData);
   ("TypeWithPrivateData", TypeWithPrivateData)].

Definition vector_int : type := TClass "std::vector<int>".
Definition pair_int_int : type := TClass "std::pair<int,int>".
Definition array_int_10 : type := TClass "std::array<int,10>".
Definition unique_ptr_int : type := TClass "std::unique_ptr<int>".

(** ** The static assertions *)

(** A [static_assert] passes when its condition is the constant [true]. *)
Definition static_assert (cond : subst bool) : bool :=
  match cond with
  | WellFormed true => true
  | _ => false
  end.

Definition not_ (cond : subst bool) : subst bool :=
  b <- cond ;; WellFormed (negb b).

(** The assertions of the file, in the order they are written. *)
Definition assertions : list (subst bool) :=
  [has_value_type classes vector_int;
   not_ (has_value_type classes pair_int_int);
   not_ (has_value_type classes TInt);
   has_data_property classes (TClass "TypeWithPublicData");
   not_ (has_data_property classes vector_int);
   not_ (has_data_property classes (TClass "TypeWithPrivateData"));
   not_ (has_data_property classes TInt);
   has_reserve classes vector_int;
   not_ (has_reserve classes array_int_10);
   is_copy_assignable classes vector_int;
   is_copy_assignable classes pair_int_int;
   not_ (is_copy_assignable classes unique_ptr_int)].

Definition compiles (tu : list (subst bool)) : bool := forallb static_assert tu.

(** [int main() { return 0; }] *)
Definition main : nat := 0.

(** ** Probes outside the repository, used to exercise [has_member] *)

(** [template <typename...> struct no_type {};] has no member [type]. *)
Definition no_type : meta.class_template := fun _ => mkClass [] true true.

(** [template <typename Tp> using Unguarded = meta::apply_t<no_type, Tp>;] *)
Definition Unguarded : meta.probe := fun Tp => meta.apply_t no_type [Tp].

(** [template <typename Tp> using Identity = Tp;] *)
Definition Identity : meta.probe := fun Tp => WellFormed Tp.

(** ** Well-formedness and containment *)

Definition is_well_formed {A : Type} (m : subst A) : bool :=
  match m with WellFormed _ => true | _ => false end.

(** A substitution is contained when it denotes something or fails in the
    immediate context. *)
Definition contained {A : Type} (m : subst A) : Prop := m <> HardError.

(** ** What a call requires of the declarations *)

(** [f] accepts the call: it takes as many parameters as there are
    arguments, it is viable, not deleted and accessible, and its
    parameters can be constructed from the arguments. *)
Definition accepts (ct : class_table) (obj : expr) (args : list expr)
  (f : member_function) : Prop :=
  length (mf_params f) = length args
  /\ candidate_conversions obj args f <> None
  /\ mf_deleted f = false
  /\ mf_access f = Public
  /\ initializes ct args (mf_params f) = true.


(** ** Declarations used to state what the probes detect *)

(** The assignment operators of a class that can be copied and moved:
    [C& operator=(const C&); C& operator=(C&&);] *)
Definition copy_and_move_assignment (id : string) : member :=
  Functions [method [const_lref (Class id)] (lref (Class id));
             method [rref (Class id)] (lref (Class id))].

(** The assignment operators of a class that can be moved and not copied:
    [C& operator=(C&&); C& operator=(const C&) = delete;] *)
Definition move_only_assignment (id : string) : member :=
  Functions [method [rref (Class id)] (lref (Class id));
             deleted [const_lref (Class id)] (lref (Class id))].

(** [template <typename Tp> using P = meta::apply_t<MetaFunction, Tp>;] *)
Definition applied (MetaFunction : meta.class_template) : meta.probe :=
  fun Tp => meta.apply_t MetaFunction [Tp].

(** An object type that is neither [void] nor a class. *)
Definition scalar (b : obj_type) : bool :=
  match b with
  | Void | Class _ => false
  | _ => true
  end.

(** * Properties *)

(** ** Type identity *)

Lemma obj_type_eqb_refl (a : obj_type) : obj_type_eqb a a = true.
Proof.
  induction a as [| | | | id | p IH c]; simpl; trivial.
  - apply String.eqb_refl.
  - rewrite IH. now destruct c.
Qed.

Lemma obj_type_eqb_eq (a b : obj_type) : obj_type_eqb a b = true <-> a = b.
Proof.
  split; [| intros ->; apply obj_type_eqb_refl].
  revert b.
  induction a as [| | | | id | p IH c]; intros [| | | | id' | q d]; simpl;
    try discriminate; trivial.
  - intros H. apply String.eqb_eq in H. now subst.
  - intros H. apply andb_true_iff in H as [Hp Hc].
    apply IH in Hp. apply Bool.eqb_prop in Hc. now subst.
Qed.

Lemma type_eqb_eq (a b : type) : type_eqb a b = true <-> a = b.
Proof.
  unfold type_eqb. split.
  - intros H. apply andb_true_iff in H as [H Hr].
    apply andb_true_iff in H as [Hb Hc].
    apply obj_type_eqb_eq in Hb. apply Bool.eqb_prop in Hc.
    destruct a as [ab ac ar], b as [bb bc br]; simpl in *. subst.
    destruct ar, br; simpl in Hr; try discriminate; reflexivity.
  - intros ->. rewrite obj_type_eqb_refl, Bool.eqb_reflx. simpl.
    now destruct (ref b).
Qed.

Lemma type_eqb_neq (a b : type) : a <> b -> type_eqb a b = false.
Proof.
  intros H. destruct (type_eqb a b) eqn:E; trivial.
  apply type_eqb_eq in E. contradiction.
Qed.

(** ** The voidifying utility *)

Lemma is_well_formed_inv {A : Type} (m : subst A) :
  is_well_formed m = true -> exists a, m = WellFormed a.
Proof. destruct m; simpl; try discriminate. intros _. now exists a. Qed.

Lemma sequence_well_formed (Ts : list (subst type)) :
  Forall (fun T => is_well_formed T = true) Ts ->
  exists Args, sequence Ts = WellFormed Args.
Proof.
  induction 1 as [| T Ts HT _ [Args IH]]; simpl.
  - now exists [].
  - apply is_well_formed_inv in HT as [t ->]. simpl. rewrite IH. simpl.
    now exists (t :: Args).
Qed.

Lemma apply_t_voider (Args : list type) :
  meta.apply_t meta.detail.voider Args = WellFormed TVoid.
Proof. reflexivity. Qed.

Lemma void_t_one (T : subst type) :
  meta.void_t [T] =
  match T with
  | WellFormed _ => WellFormed TVoid
  | Failure => Failure
  | HardError => HardError
  end.
Proof. now destruct T. Qed.

(** C8: whatever well-formed arguments [void_t] is given, none included,
    it denotes [void]; so any two such uses denote the same type. *)
Theorem void_t_marker (Ts : list (subst type))
  (H : Forall (fun T => is_well_formed T = true) Ts) :
  meta.void_t Ts = WellFormed TVoid /\ meta.void_t Ts = meta.void_t [].
Proof.
  destruct (sequence_well_formed H) as [Args E].
  unfold meta.void_t. rewrite E. simpl. split; reflexivity.
Qed.

Lemma void_t_marker_witness :
  meta.void_t [WellFormed TInt; ValueType classes vector_int;
               detail.InspectCopyAssignable classes pair_int_int]
  = WellFormed TVoid.
Proof.
  apply (void_t_marker
           (Ts := [WellFormed TInt; ValueType classes vector_int;
                   detail.InspectCopyAssignable classes pair_int_int])).
  repeat constructor.
Defined.

(** ** The detection predicate *)

Lemma has_member_default_void (Member : meta.probe) (Tp : type) :
  meta.has_member_default Member Tp = meta.has_member Member Tp TVoid.
Proof. reflexivity. Qed.

Lemma has_member_cases (Member : meta.probe) (Tp V : type) :
  meta.has_member Member Tp V =
  match Member Tp with
  | WellFormed _ => WellFormed (type_eqb TVoid V)
  | Failure => WellFormed false
  | HardError => HardError
  end.
Proof.
  unfold meta.has_member. rewrite void_t_one. now destruct (Member Tp).
Qed.

Lemma has_member_default_cases (Member : meta.probe) (Tp : type) :
  meta.has_member_default Member Tp =
  match Member Tp with
  | WellFormed _ => WellFormed true
  | Failure => WellFormed false
  | HardError => HardError
  end.
Proof.
  rewrite has_member_default_void, has_member_cases.
  now destruct (Member Tp).
Qed.

(** C2: the detection predicate is [true] exactly when the probe is
    well-formed for the candidate, and [false] when the specialization is
    discarded because substituting the candidate into the probe fails. *)
Theorem has_member_iff_well_formed (Member : meta.probe) (Tp : type) :
  (meta.has_member_default Member Tp = WellFormed true
   <-> is_well_formed (Member Tp) = true)
  /\ (is_well_formed (meta.void_t [Member Tp]) = is_well_formed (Member Tp))
  /\ (Member Tp = Failure ->
      meta.has_member_default Member Tp = WellFormed false).
Proof.
  rewrite has_member_default_cases, void_t_one.
  destruct (Member Tp); simpl; repeat split; try easy.
Qed.

Lemma has_member_iff_well_formed_witness :
  meta.has_member_default (ValueType classes) vector_int = WellFormed true
  /\ meta.has_member_default (ValueType classes) TInt = WellFormed false.
Proof.
  split.
  - apply (proj1 (has_member_iff_well_formed (ValueType classes) vector_int)).
    reflexivity.
  - apply (has_member_iff_well_formed (ValueType classes) TInt).
    reflexivity.
Defined.

(** ** Containment

    The lookup of a name in a complete class fails in the immediate
    context only. *)

Create HintDb contained.

Lemma contained_well_formed {A : Type} (a : A) : contained (WellFormed a).
Proof. discriminate. Qed.

Lemma contained_failure {A : Type} : contained (@Failure A).
Proof. discriminate. Qed.

Lemma contained_bind {A B : Type} (m : subst A) (k : A -> subst B) :
  contained m -> (forall a, contained (k a)) -> contained (bind m k).
Proof. intros Hm Hk. destruct m; simpl; [apply Hk | discriminate | now elim Hm]. Qed.

Lemma contained_require (b : bool) : contained (require b).
Proof. now destruct b. Qed.

#[local] Hint Resolve contained_well_formed contained_failure
  contained_require : contained.

Ltac contained_cases :=
  repeat first
    [ apply contained_bind; [| intros ? ]
    | match goal with
      | |- contained (match ?x with _ => _ end) => destruct x
      end
    | solve [ auto with contained ] ].

Lemma contained_lookup_class (ct : class_table) (t : obj_type) :
  contained (lookup_class ct t).
Proof. unfold lookup_class. contained_cases. Qed.

Lemma contained_lookup_member (c : class_info) (name : string) :
  contained (lookup_member c name).
Proof. unfold lookup_member. contained_cases. Qed.

#[local] Hint Resolve contained_lookup_class contained_lookup_member
  : contained.

Lemma contained_member_type (c : class_info) (name : string) :
  contained (member_type c name).
Proof. unfold member_type. contained_cases. Qed.

#[local] Hint Resolve contained_member_type : contained.

Lemma contained_nested_type (ct : class_table) (T : type) (name : string) :
  contained (nested_type ct T name).
Proof. unfold nested_type. contained_cases. Qed.





(** ** The probes on the types of the assertions *)

(** C3: [has_value_type] on [std::vector<int>], [std::pair<int, int>] and
    [int]. *)
Theorem has_value_type_cases :
  has_value_type classes vector_int = WellFormed true
  /\ has_value_type classes pair_int_int = WellFormed false
  /\ has_value_type classes TInt = WellFormed false.
Proof. repeat split; reflexivity. Qed.

(** C4: [has_data_property] on a class with a public [data], on
    [std::vector<int>] (whose [data] names member functions), on a class
    with a private [data], and on [int]. *)
Theorem has_data_property_cases :
  has_data_property classes (TClass "TypeWithPublicData") = WellFormed true
  /\ has_data_property classes vector_int = WellFormed false
  /\ has_data_property classes (TClass "TypeWithPrivateData")
     = WellFormed false
  /\ has_data_property classes TInt = WellFormed false.
Proof. repeat split; reflexivity. Qed.

(** [int] is not a class: no declaration makes [int::value_type] or
    [declval<int>().data] well-formed. *)
Lemma int_has_no_members (ct : class_table) :
  has_value_type ct TInt = WellFormed false
  /\ has_data_property ct TInt = WellFormed false
  /\ has_reserve ct TInt = WellFormed false.
Proof. repeat split; reflexivity. Qed.

(** *** What a well-formed call says about the declarations *)


Lemma args_conversions_length (args : list expr) (params : list type)
  (rs : list conversion) :
  args_conversions args params = Some rs -> length params = length args.
Proof.
  revert params rs.
  induction args as [| a args IH]; intros [| p params] rs; simpl;
    try discriminate; trivial.
  destruct (conversion_sequence a p); try discriminate.
  destruct (args_conversions args params) eqn:E; try discriminate.
  intros _. f_equal. eapply IH, E.
Qed.

Lemma viable_in (obj : expr) (args : list expr) (fs : list member_function)
  (f : member_function) (r : list conversion) :
  In (f, r) (viable obj args fs) ->
  In f fs /\ candidate_conversions obj args f = Some r.
Proof.
  induction fs as [| g fs IH]; simpl; [easy |].
  destruct (candidate_conversions obj args g) eqn:E.
  - intros [H | H].
    + inversion H; subst. auto.
    + destruct (IH H). auto.
  - intros H. destruct (IH H). auto.
Qed.

Lemma select_best_in (seen rest : list (member_function * list conversion))
  (f : member_function) :
  select_best seen rest = Some f -> exists r, In (f, r) rest.
Proof.
  revert seen.
  induction rest as [| [g r] rest IH]; intros seen; simpl; [discriminate |].
  destruct (forallb _ _).
  - intros H. inversion H; subst. exists r. now left.
  - intros H. destruct (IH _ H) as [r' Hr']. exists r'. now right.
Qed.

Lemma resolve_accepts (ct : class_table) (fs : list member_function)
  (obj : expr) (args : list expr) (f : member_function) :
  resolve ct fs obj args = WellFormed f ->
  In f fs /\ accepts ct obj args f.
Proof.
  unfold resolve.
  destruct (select_best _ _) as [g |] eqn:E; [| discriminate].
  destruct (mf_deleted g) eqn:Hd; simpl; [discriminate |].
  destruct (mf_access g) eqn:Ha; simpl; [| discriminate].
  destruct (initializes ct args (mf_params g)) eqn:Hi; simpl;
    [| discriminate].
  intros H. inversion H; subst g.
  apply select_best_in in E as [r Hr].
  apply viable_in in Hr as [Hin Hr].
  split; [exact Hin |]. repeat split; trivial.
  - unfold candidate_conversions in Hr.
    destruct (object_conversion obj f); try discriminate.
    destruct (args_conversions args (mf_params f)) eqn:Ea; try discriminate.
    eapply args_conversions_length, Ea.
  - now rewrite Hr.
Qed.


Lemma nested_type_declared (ct : class_table) (T : type) (name : string)
  (t : type) :
  nested_type ct T name = WellFormed t ->
  exists id c,
    ref T = NoRef /\ base T = Class id /\ assoc id ct = Some c
    /\ assoc name (members c) = Some (NestedType Public t).
Proof.
  unfold nested_type, lookup_class, member_type, lookup_member.
  destruct (ref T); try discriminate.
  destruct (base T) as [| | | | id |]; try discriminate.
  destruct (assoc id ct) as [c |] eqn:Ec; [| discriminate]. simpl.
  destruct (assoc name (members c)) as [[[] t' | ? ? | ?] |] eqn:Em;
    try discriminate.
  simpl. intros H. inversion H; subst. exists id, c. auto.
Qed.





(** C6: [is_copy_assignable] on [std::vector<int>], [std::pair<int, int>]
    and [std::unique_ptr<int>], whose copy assignment is deleted. *)
Theorem is_copy_assignable_cases :
  is_copy_assignable classes vector_int = WellFormed true
  /\ is_copy_assignable classes pair_int_int = WellFormed true
  /\ is_copy_assignable classes unique_ptr_int = WellFormed false.
Proof. repeat split; reflexivity. Qed.

(** The deleted copy assignment of [std::unique_ptr<int>] is the function
    overload resolution selects for a [const] lvalue. *)
Lemma unique_ptr_selects_deleted :
  exists f,
    select_best []
      (viable (declval unique_ptr_int)
         [declval (const_lref (Class "std::unique_ptr<int>"))]
         [method [rref (Class "std::unique_ptr<int>")]
                 (lref (Class "std::unique_ptr<int>"));
          method [plain NullPtrT] (lref (Class "std::unique_ptr<int>"));
          deleted [const_lref (Class "std::unique_ptr<int>")]
                  (lref (Class "std::unique_ptr<int>"))])
    = Some f /\ mf_deleted f = true.
Proof. eexists. split; reflexivity. Qed.

(** C7: on [int] the copy-assignment probe is [false], whatever classes are
    declared: [std::declval<int>()] is an rvalue, and the built-in
    assignment needs a modifiable lvalue on its left. *)
Theorem is_copy_assignable_int (ct : class_table) :
  detail.InspectCopyAssignable ct TInt = Failure
  /\ is_copy_assignable ct TInt = WellFormed false.
Proof. split; reflexivity. Qed.

(** With an lvalue on the left, as [std::declval<int&>()] is, the same
    probe is well-formed. *)
Lemma is_copy_assignable_int_ref (ct : class_table) :
  detail.InspectCopyAssignable ct (lref Int) = WellFormed (lref Int)
  /\ is_copy_assignable ct (lref Int) = WellFormed true.
Proof. split; reflexivity. Qed.

(** The assertions the file keeps all pass, and the one it comments out
    does not. *)
Lemma assertions_pass :
  compiles assertions = true
  /\ static_assert (is_copy_assignable classes TInt) = false.
Proof. split; reflexivity. Qed.

(** ** The third template argument *)

(** C10, as the code has it: the third argument defaults to [void]; with
    any other third argument the predicate is [false] for every probe
    whose substitution denotes a type or fails in the immediate context,
    a well-formed probe included. *)
Theorem has_member_third_argument :
  meta.void_t [] = WellFormed TVoid
  /\ (forall (Member : meta.probe) (Tp : type),
         meta.has_member_default Member Tp = meta.has_member Member Tp TVoid)
  /\ (forall (Member : meta.probe) (Tp V : type),
         V <> TVoid ->
         contained (Member Tp) ->
         meta.has_member Member Tp V = WellFormed false)
  /\ (forall (Member : meta.probe) (Tp V : type),
         V <> TVoid ->
         is_well_formed (Member Tp) = true ->
         meta.has_member Member Tp V = WellFormed false).
Proof.
  assert (E : forall (Member : meta.probe) (Tp V : type),
             V <> TVoid -> contained (Member Tp) ->
             meta.has_member Member Tp V = WellFormed false).
  { intros Member Tp V HV H. rewrite has_member_cases.
    destruct (Member Tp); [| reflexivity | now elim H].
    rewrite type_eqb_neq; [reflexivity | congruence]. }
  split; [reflexivity |]. split; [reflexivity |]. split; [exact E |].
  intros Member Tp V HV H. apply E; trivial.
  apply is_well_formed_inv in H as [t ->]. discriminate.
Qed.

Lemma has_member_third_argument_witness :
  meta.has_member (ValueType classes) vector_int TInt = WellFormed false
  /\ meta.has_member (ValueType classes) TInt TInt = WellFormed false
  /\ meta.has_member Identity TInt (mkType Void true NoRef)
     = WellFormed false.
Proof.
  split; [| split].
  - apply (proj2 (proj2 (proj2 has_member_third_argument))
             (ValueType classes) vector_int TInt).
    + discriminate.
    + reflexivity.
  - apply (proj1 (proj2 (proj2 has_member_third_argument))
             (ValueType classes) TInt TInt); discriminate.
  - apply (proj1 (proj2 (proj2 has_member_third_argument))
             Identity TInt (mkType Void true NoRef)); discriminate.
Defined.

(** C10, as the claim states it, fails: with a third argument other than
    [void], a probe that fails inside [meta::apply] stops the compilation
    instead of giving [false]. *)
Lemma has_member_third_argument_hard_error :
  meta.has_member Unguarded TInt TInt = HardError
  /\ ~ (forall (Member : meta.probe) (Tp V : type),
           V <> TVoid -> meta.has_member Member Tp V = WellFormed false).
Proof.
  split; [reflexivity |].
  intros H. assert (E := H Unguarded TInt TInt). 
  assert (N : TInt <> TVoid) by discriminate.
  specialize (E N). discriminate E.
Qed.

(** * Further properties of the templates *)

(** ** [meta::apply] and [meta::apply_t] *)

(** X1: [apply_t<MetaFunction, Args...>] denotes the public member [type]
    of [MetaFunction<Args...>]; without such a member it is an error
    outside the immediate context, never a substitution failure. *)
Theorem apply_t_outcome (MetaFunction : meta.class_template)
  (Args : list type) :
  (forall t,
      meta.apply_t MetaFunction Args = WellFormed t
      <-> assoc "type" (members (MetaFunction Args))
          = Some (NestedType Public t))
  /\ meta.apply_t MetaFunction Args <> Failure
  /\ (meta.apply_t MetaFunction Args = HardError
      <-> forall t, assoc "type" (members (MetaFunction Args))
                    <> Some (NestedType Public t)).
Proof.
  unfold meta.apply_t, meta.apply, member_type, lookup_member.
  destruct (assoc "type" (members (MetaFunction Args)))
    as [[[|] t' | acc t' | fs] |]; simpl;
    (split; [intros t; split; intros H; congruence |]);
    (split; [discriminate |]);
    split; intros H; try discriminate; try reflexivity.
  elim (H t'). reflexivity.
Qed.

Lemma has_member_default_true_iff (Member : meta.probe) (Tp : type) :
  meta.has_member_default Member Tp = WellFormed true
  <-> exists t, Member Tp = WellFormed t.
Proof.
  rewrite has_member_default_cases.
  destruct (Member Tp) as [t | |]; split; try discriminate.
  - intros _. now exists t.
  - reflexivity.
  - intros [t H]. discriminate.
  - intros [t H]. discriminate.
Qed.

Lemma has_member_default_false_iff (Member : meta.probe) (Tp : type) :
  meta.has_member_default Member Tp = WellFormed false
  <-> Member Tp = Failure.
Proof.
  rewrite has_member_default_cases.
  destruct (Member Tp) as [t | |]; split; congruence.
Qed.

(** X2: a probe written with [meta::apply_t] never makes the detection
    predicate [false]: it is [true] when the class template has a public
    member [type] for the candidate, and a hard error otherwise. *)
Theorem has_member_applied (MetaFunction : meta.class_template) (Tp : type) :
  meta.has_member_default (applied MetaFunction) Tp <> WellFormed false
  /\ (meta.has_member_default (applied MetaFunction) Tp = WellFormed true
      <-> exists t, assoc "type" (members (MetaFunction [Tp]))
                    = Some (NestedType Public t))
  /\ (meta.has_member_default (applied MetaFunction) Tp = HardError
      <-> forall t, assoc "type" (members (MetaFunction [Tp]))
                    <> Some (NestedType Public t)).
Proof.
  rewrite has_member_default_cases. unfold applied.
  unfold meta.apply_t, meta.apply, member_type, lookup_member.
  destruct (assoc "type" (members (MetaFunction [Tp])))
    as [[[|] t' | acc t' | fs] |]; simpl;
    (split; [discriminate |]);
    split; split; intros H; try discriminate; try reflexivity;
    try (destruct H; discriminate).
  - now exists t'.
  - elim (H t'). reflexivity.
Qed.

(** ** [meta::void_t] on arguments that may be ill-formed *)

Lemma sequence_prefix {A : Type} (pre : list A) (rest : list (subst A)) :
  sequence (map (@WellFormed A) pre ++ rest)
  = (l <- sequence rest ;; WellFormed (pre ++ l)%list).
Proof.
  induction pre as [| a pre IH]; simpl.
  - now destruct (sequence rest).
  - rewrite IH. now destruct (sequence rest).
Qed.

Lemma sequence_inv (Ts : list (subst type)) (Args : list type) :
  sequence Ts = WellFormed Args ->
  Forall (fun T => is_well_formed T = true) Ts.
Proof.
  revert Args. induction Ts as [| T Ts IH]; intros Args; simpl.
  - constructor.
  - destruct T as [t | |]; simpl; try discriminate.
    destruct (sequence Ts) as [l | |] eqn:E; simpl; try discriminate.
    intros _. constructor; [reflexivity | now apply (IH l)].
Qed.

(** X3: [void_t<Ts...>] denotes a type exactly when every argument does,
    and the type is then [void]. *)
Theorem void_t_well_formed_iff (Ts : list (subst type)) (t : type) :
  meta.void_t Ts = WellFormed t
  <-> t = TVoid /\ Forall (fun T => is_well_formed T = true) Ts.
Proof.
  unfold meta.void_t. split.
  - destruct (sequence Ts) as [Args | |] eqn:E; simpl; try discriminate.
    rewrite apply_t_voider. intros H.
    split; [congruence | now apply sequence_inv with Args].
  - intros [-> H]. destruct (sequence_well_formed H) as [Args ->].
    reflexivity.
Qed.

(** X4: the arguments of [void_t] are substituted from left to right: the
    first one that does not denote a type decides whether [void_t] is a
    substitution failure or a hard error, whatever follows it. *)
Theorem void_t_first_ill_formed (pre : list type) (T : subst type)
  (post : list (subst type)) (H : is_well_formed T = false) :
  meta.void_t (map (@WellFormed type) pre ++ T :: post)
  = match T with HardError => HardError | _ => Failure end.
Proof.
  unfold meta.void_t. rewrite sequence_prefix.
  destruct T; simpl in *; [discriminate | reflexivity | reflexivity].
Qed.

Lemma void_t_first_ill_formed_witness :
  meta.void_t [WellFormed TInt; ValueType classes TInt; Unguarded TInt]
  = Failure
  /\ meta.void_t [WellFormed TInt; Unguarded TInt; ValueType classes TInt]
     = HardError.
Proof.
  split.
  - apply (void_t_first_ill_formed [TInt] (ValueType classes TInt)
             [Unguarded TInt]).
    reflexivity.
  - apply (void_t_first_ill_formed [TInt] (Unguarded TInt)
             [ValueType classes TInt]).
    reflexivity.
Defined.

(** ** [meta::has_member] with any third argument *)

(** X5: [has_member<Member, Tp, V>] is [true] exactly when the probe is
    well-formed for the candidate and [V] is [void]; it stops the
    compilation exactly when substituting the candidate into the probe
    does; which type a well-formed probe denotes has no influence. *)
Theorem has_member_outcomes (Member : meta.probe) (Tp V : type) :
  (meta.has_member Member Tp V = WellFormed true
   <-> is_well_formed (Member Tp) = true /\ V = TVoid)
  /\ (meta.has_member Member Tp V = HardError <-> Member Tp = HardError)
  /\ (forall Member' : meta.probe,
         is_well_formed (Member Tp) = true ->
         is_well_formed (Member' Tp) = true ->
         meta.has_member Member Tp V = meta.has_member Member' Tp V).
Proof.
  rewrite has_member_cases. split; [split |]; [| | split; [split |]].
  - destruct (Member Tp); try discriminate.
    intros H. split; [reflexivity |].
    symmetry. apply type_eqb_eq. congruence.
  - intros [H ->]. now destruct (Member Tp).
  - destruct (Member Tp); congruence.
  - intros ->. reflexivity.
  - intros Member' H H'. rewrite has_member_cases.
    destruct (Member Tp); try discriminate.
    now destruct (Member' Tp).
Qed.

Lemma has_member_outcomes_witness :
  meta.has_member (ValueType classes) vector_int TVoid
  = meta.has_member Identity vector_int TVoid.
Proof.
  apply (proj2 (proj2 (has_member_outcomes (ValueType classes) vector_int
                         TVoid)) Identity); reflexivity.
Defined.

(** ** What [has_value_type] and [has_data_property] detect *)

Lemma declval_base (Tp : type) : e_base (declval Tp) = base Tp.
Proof. destruct Tp as [b c r]. now destruct r, b. Qed.

Lemma nested_type_of_declaration (ct : class_table) (T : type)
  (name id : string) (c : class_info) (t : type) :
  ref T = NoRef -> base T = Class id -> assoc id ct = Some c ->
  assoc name (members c) = Some (NestedType Public t) ->
  nested_type ct T name = WellFormed t.
Proof.
  intros Hr Hb Hc Hm.
  unfold nested_type, lookup_class, member_type, lookup_member.
  rewrite Hr, Hb, Hc. simpl. now rewrite Hm.
Qed.

(** X6: [has_value_type<Tp>] is [true] exactly when [Tp] is a class type,
    not a reference, that is complete and declares a public nested type
    [value_type]. *)
Theorem has_value_type_iff (ct : class_table) (Tp : type) :
  has_value_type ct Tp = WellFormed true
  <-> exists id c t,
        ref Tp = NoRef /\ base Tp = Class id /\ assoc id ct = Some c
        /\ assoc "value_type" (members c) = Some (NestedType Public t).
Proof.
  unfold has_value_type. rewrite has_member_default_true_iff.
  unfold ValueType. split.
  - intros [t H]. apply nested_type_declared in H as (id & c & H).
    now exists id, c, t.
  - intros (id & c & t & Hr & Hb & Hc & Hm). exists t.
    now apply nested_type_of_declaration with id c.
Qed.

(** X7: a reference type names no nested type, so [has_value_type] and
    [has_reserve] are [false] on every reference, also on a reference to
    a class for which they are [true]. *)
Theorem reference_has_no_nested_type (ct : class_table) (Tp : type)
  (H : ref Tp <> NoRef) :
  has_value_type ct Tp = WellFormed false
  /\ has_reserve ct Tp = WellFormed false.
Proof.
  unfold has_value_type, has_reserve.
  rewrite !has_member_default_false_iff.
  unfold ValueType, detail.InspectReserve, nested_type.
  destruct (ref Tp); [now elim H | easy | easy].
Qed.

Lemma reference_has_no_nested_type_witness :
  has_value_type classes (lref (Class "std::vector<int>")) = WellFormed false
  /\ has_reserve classes (lref (Class "std::vector<int>")) = WellFormed false.
Proof.
  apply (reference_has_no_nested_type classes
           (lref (Class "std::vector<int>"))).
  discriminate.
Defined.

(** X8: on a complete class, [has_data_property] follows what the name
    [data] denotes in it: for a public non-static data member it is
    [true] and the probe denotes the declared type of the member; for no
    member [data], a private data member, a nested type or non-static
    member functions it is [false]. *)
Theorem has_data_property_declared (ct : class_table) (Tp : type)
  (id : string) (c : class_info)
  (Hb : base Tp = Class id) (Hc : assoc id ct = Some c) :
  (forall t, assoc "data" (members c) = Some (DataMember Public t) ->
             detail.InspectDataProperty ct Tp = WellFormed t
             /\ has_data_property ct Tp = WellFormed true)
  /\ (assoc "data" (members c) = None ->
      has_data_property ct Tp = WellFormed false)
  /\ (forall t, assoc "data" (members c) = Some (DataMember Private t) ->
                has_data_property ct Tp = WellFormed false)
  /\ (forall acc t, assoc "data" (members c) = Some (NestedType acc t) ->
                    has_data_property ct Tp = WellFormed false)
  /\ (forall fs, assoc "data" (members c) = Some (Functions fs) ->
                 has_data_property ct Tp = WellFormed false).
Proof.
  assert (E : detail.InspectDataProperty ct Tp
              = match assoc "data" (members c) with
                | Some (DataMember Public t) => WellFormed t
                | _ => Failure
                end).
  { unfold detail.InspectDataProperty, decltype_member, data_member,
      lookup_class, lookup_member.
    rewrite declval_base, Hb, Hc. simpl.
    now destruct (assoc "data" (members c)) as [[? ? | [] ? | ?] |]. }
  unfold has_data_property. rewrite has_member_default_cases, E.
  repeat split; intros; 
    match goal with H : assoc _ _ = _ |- _ => rewrite H end; reflexivity.
Qed.

Lemma has_data_property_declared_witness :
  detail.InspectDataProperty classes
    (const_lref (Class "TypeWithPublicData")) = WellFormed TInt
  /\ has_data_property classes (const_lref (Class "TypeWithPublicData"))
     = WellFormed true.
Proof.
  apply (proj1 (@has_data_property_declared classes
                  (const_lref (Class "TypeWithPublicData"))
                  "TypeWithPublicData" TypeWithPublicData
                  eq_refl eq_refl) TInt).
  reflexivity.
Defined.

(** X9: [has_data_property] looks through [const] and references: two
    candidates with the same object type have the same result. *)
Theorem has_data_property_cv_ref (ct : class_table) (Tp Tp' : type)
  (H : base Tp = base Tp') :
  detail.InspectDataProperty ct Tp = detail.InspectDataProperty ct Tp'
  /\ has_data_property ct Tp = has_data_property ct Tp'.
Proof.
  assert (E : detail.InspectDataProperty ct Tp
              = detail.InspectDataProperty ct Tp').
  { unfold detail.InspectDataProperty, decltype_member, data_member.
    now rewrite !declval_base, H. }
  split; [exact E |].
  unfold has_data_property. rewrite !has_member_default_cases. now rewrite E.
Qed.

Lemma has_data_property_cv_ref_witness :
  has_data_property classes (TClass "TypeWithPublicData")
  = has_data_property classes (mkType (Class "TypeWithPublicData") true RRef).
Proof.
  apply (has_data_property_cv_ref classes (TClass "TypeWithPublicData")
           (mkType (Class "TypeWithPublicData") true RRef)).
  reflexivity.
Defined.

(** ** What [is_copy_assignable] detects *)

Lemma converts_refl (b : obj_type) : converts b b = Some (true, ExactMatch).
Proof. unfold converts. now rewrite obj_type_eqb_refl. Qed.

(** X10: on a candidate that is not a class, [is_copy_assignable] is
    [true] exactly for an lvalue reference to a non-const scalar: the left
    operand [std::declval<Tp>()] is an rvalue for every other candidate,
    the scalar types themselves included. *)
Theorem is_copy_assignable_non_class (ct : class_table) (Tp : type)
  (H : is_class (base Tp) = false) :
  is_copy_assignable ct Tp
  = WellFormed (match ref Tp with
                | LRef => scalar (base Tp) && negb (is_const Tp)
                | _ => false
                end).
Proof.
  unfold is_copy_assignable. rewrite has_member_default_cases.
  unfold detail.InspectCopyAssignable.
  destruct Tp as [b c r]. simpl in H.
  destruct r, c, b; try discriminate H; try reflexivity;
    unfold add_const, add_lvalue_reference, declval, assign; simpl;
    now rewrite converts_refl.
Qed.

Lemma is_copy_assignable_non_class_witness :
  is_copy_assignable classes (plain (Ptr Int false)) = WellFormed false
  /\ is_copy_assignable classes (lref (Ptr Int false)) = WellFormed true
  /\ is_copy_assignable classes (const_lref Int) = WellFormed false.
Proof.
  split; [| split].
  - apply (is_copy_assignable_non_class classes (plain (Ptr Int false))).
    reflexivity.
  - apply (is_copy_assignable_non_class classes (lref (Ptr Int false))).
    reflexivity.
  - apply (is_copy_assignable_non_class classes (const_lref Int)).
    reflexivity.
Defined.

Ltac unfold_assignment :=
  unfold is_copy_assignable; rewrite !has_member_default_cases;
  unfold detail.InspectCopyAssignable, add_const, add_lvalue_reference,
    declval, assign, call_operator, lookup_class, lookup_member; simpl.

Ltac resolve_overloads :=
  repeat (progress
            (cbv delta [resolve candidate_conversions object_conversion
                        conversion_sequence better compare_conversions
                        compare_bindings method deleted
                        copy_and_move_assignment move_only_assignment];
             simpl; rewrite ?String.eqb_refl)).

(** X11: a complete class whose [operator=] are a public copy assignment
    [C& operator=(const C&)] and a public move assignment
    [C& operator=(C&&)], neither of them deleted, is detected as copy
    assignable, through a reference as well; its [const] version is not. *)
Theorem is_copy_assignable_copy_and_move (ct : class_table) (id : string)
  (c : class_info) (r : ref_kind)
  (Hc : assoc id ct = Some c)
  (Hm : assoc "operator=" (members c) = Some (copy_and_move_assignment id)) :
  is_copy_assignable ct (mkType (Class id) false r) = WellFormed true
  /\ is_copy_assignable ct (mkType (Class id) true r) = WellFormed false.
Proof.
  split; destruct r; unfold_assignment; rewrite Hc; simpl; rewrite Hm; simpl;
    resolve_overloads; reflexivity.
Qed.

Lemma is_copy_assignable_copy_and_move_witness :
  is_copy_assignable classes (lref (Class "TypeWithPrivateData"))
  = WellFormed true
  /\ is_copy_assignable classes (mkType (Class "TypeWithPrivateData") true LRef)
     = WellFormed false.
Proof.
  apply (@is_copy_assignable_copy_and_move classes "TypeWithPrivateData"
           TypeWithPrivateData LRef); reflexivity.
Defined.

(** X12: a class that declares a move assignment and deletes its copy
    assignment is never detected as copy assignable: overload resolution
    selects the deleted operator, or finds no viable one. *)
Theorem is_copy_assignable_move_only (ct : class_table) (id : string)
  (c : class_info) (cst : bool) (r : ref_kind)
  (Hc : assoc id ct = Some c)
  (Hm : assoc "operator=" (members c) = Some (move_only_assignment id)) :
  is_copy_assignable ct (mkType (Class id) cst r) = WellFormed false.
Proof.
  destruct cst, r; unfold_assignment; rewrite Hc; simpl; rewrite Hm; simpl;
    resolve_overloads; reflexivity.
Qed.

Lemma is_copy_assignable_move_only_witness :
  is_copy_assignable
    [("MoveOnly", mkClass [("operator=", move_only_assignment "MoveOnly")]
                    false true)]
    (TClass "MoveOnly")
  = WellFormed false.
Proof.
  apply (@is_copy_assignable_move_only
           [("MoveOnly", mkClass [("operator=", move_only_assignment "MoveOnly")]
                           false true)]
           "MoveOnly"
           (mkClass [("operator=", move_only_assignment "MoveOnly")]
              false true)
           false NoRef); reflexivity.
Defined.

Lemma call_operator_accepts (ct : class_table) (callee : expr) (op : string)
  (args : list expr) (r : expr) :
  call_operator ct callee op args = WellFormed r ->
  exists id c fs f,
    e_base callee = Class id /\ assoc id ct = Some c
    /\ assoc op (members c) = Some (Functions fs)
    /\ In f fs /\ accepts ct callee args f.
Proof.
  unfold call_operator, lookup_class, lookup_member.
  destruct (e_base callee) as [| | | | id |]; try discriminate.
  destruct (assoc id ct) as [c |] eqn:Ec; [| discriminate]. simpl.
  destruct (assoc op (members c)) as [[? ? | ? ? | fs] |] eqn:Em;
    try discriminate.
  simpl.
  destruct (resolve ct fs callee args) as [f | |] eqn:Er; try discriminate.
  intros _. apply resolve_accepts in Er as [Hin Hacc].
  exists id, c, fs, f. auto.
Qed.

(** X13: [is_copy_assignable] is [true] on a class type only when the
    class is complete and declares an [operator=] that is viable for a
    left operand [std::declval<Tp>()] and a right operand
    [std::declval<Tp const&>()], and is neither deleted nor inaccessible. *)
Theorem is_copy_assignable_requires (ct : class_table) (Tp : type)
  (id : string) (Hb : base Tp = Class id)
  (H : is_copy_assignable ct Tp = WellFormed true) :
  exists source c fs f,
    add_lvalue_reference (add_const Tp) = WellFormed source
    /\ assoc id ct = Some c
    /\ assoc "operator=" (members c) = Some (Functions fs)
    /\ In f fs
    /\ accepts ct (declval Tp) [declval source] f.
Proof.
  unfold is_copy_assignable in H.
  apply has_member_default_true_iff in H as [t H].
  unfold detail.InspectCopyAssignable in H.
  destruct (add_lvalue_reference (add_const Tp)) as [source | |];
    try discriminate.
  simpl in H.
  destruct (assign ct (declval Tp) (declval source)) as [r | |] eqn:Ea;
    try discriminate.
  unfold assign in Ea. rewrite declval_base, Hb in Ea.
  apply call_operator_accepts in Ea as (id' & c & fs & f & Hid & Hrest).
  rewrite declval_base, Hb in Hid. inversion Hid; subst id'.
  exists source, c, fs, f. split; [reflexivity | exact Hrest].
Qed.

Lemma is_copy_assignable_requires_witness :
  exists source c fs f,
    add_lvalue_reference (add_const vector_int) = WellFormed source
    /\ assoc "std::vector<int>" classes = Some c
    /\ assoc "operator=" (members c) = Some (Functions fs)
    /\ In f fs
    /\ accepts classes (declval vector_int) [declval source] f.
Proof.
  apply (@is_copy_assignable_requires classes vector_int "std::vector<int>");
    reflexivity.
Defined.

(** ** What [has_reserve] detects *)

Lemma viable_const_object (obj : expr) (args : list expr)
  (fs : list member_function) :
  e_const obj = true ->
  Forall (fun f => mf_const f = false) fs ->
  viable obj args fs = [].
Proof.
  intros Hobj. induction 1 as [| f fs Hf _ IH]; simpl; trivial.
  unfold candidate_conversions, object_conversion. now rewrite Hf, Hobj.
Qed.

Lemma conversion_sequence_scalar (a : expr) (P : type) :
  ref P = NoRef -> scalar (base P) = true -> e_base a = base P ->
  conversion_sequence a P = Some (mkConv true ExactMatch None).
Proof.
  intros Hr Hs Hb. unfold conversion_sequence. rewrite Hr, Hb.
  destruct (base P); try discriminate Hs; now rewrite converts_refl.
Qed.

(** X14: a complete class with a public scalar [size_type] and one public
    member function [reserve] taking a [size_type] is detected, whatever
    [reserve] returns; the probe denotes the type of the call. *)
Theorem has_reserve_sufficient (ct : class_table) (id : string)
  (c : class_info) (size_type R : type)
  (Hc : assoc id ct = Some c)
  (Hs : assoc "size_type" (members c) = Some (NestedType Public size_type))
  (Hr : assoc "reserve" (members c)
        = Some (Functions [method [size_type] R]))
  (Href : ref size_type = NoRef)
  (Hsc : scalar (base size_type) = true) :
  has_reserve ct (TClass id) = WellFormed true
  /\ detail.InspectReserve ct (TClass id)
     = WellFormed (decltype (expr_of_type R)).
Proof.
  assert (E : detail.InspectReserve ct (TClass id)
              = WellFormed (decltype (expr_of_type R))).
  { unfold detail.InspectReserve.
    rewrite (@nested_type_of_declaration ct (TClass id) "size_type" id c
               size_type); trivial.
    simpl. unfold member_call, lookup_class, lookup_member. simpl.
    rewrite Hc. simpl. rewrite Hr. simpl.
    unfold resolve. simpl.
    assert (Ek : candidate_conversions (declval (TClass id))
                   [declval size_type] (method [size_type] R) <> None).
    { unfold candidate_conversions, object_conversion, method. simpl.
      rewrite conversion_sequence_scalar; trivial using declval_base.
      discriminate. }
    destruct (candidate_conversions _ _ _) as [k |]; [| now elim Ek].
    simpl. rewrite Href.
    now destruct (base size_type); try discriminate Hsc. }
  split; [| exact E].
  unfold has_reserve. rewrite has_member_default_cases. now rewrite E.
Qed.

Lemma has_reserve_sufficient_witness :
  has_reserve classes vector_int = WellFormed true
  /\ detail.InspectReserve classes vector_int = WellFormed TVoid.
Proof.
  apply (@has_reserve_sufficient classes "std::vector<int>" std.vector_int
           TSize TVoid); reflexivity.
Defined.

(** X15: when every [reserve] of a class is a non-const member function,
    [has_reserve] is [false] on the [const] class: [std::declval] of it is
    a [const] object, on which none of them can be called. *)
Theorem has_reserve_const_candidate (ct : class_table) (id : string)
  (c : class_info) (fs : list member_function)
  (Hc : assoc id ct = Some c)
  (Hr : assoc "reserve" (members c) = Some (Functions fs))
  (Hfs : Forall (fun f => mf_const f = false) fs) :
  has_reserve ct (mkType (Class id) true NoRef) = WellFormed false.
Proof.
  unfold has_reserve. apply has_member_default_false_iff.
  unfold detail.InspectReserve.
  destruct (nested_type ct _ "size_type") as [s | |] eqn:Es;
    [| reflexivity | now elim (@contained_nested_type ct _ _ Es)].
  simpl. unfold member_call, lookup_class, lookup_member. simpl.
  rewrite Hc. simpl. rewrite Hr. simpl. unfold resolve.
  now rewrite viable_const_object.
Qed.

Lemma has_reserve_const_candidate_witness :
  has_reserve classes (mkType (Class "std::vector<int>") true NoRef)
  = WellFormed false.
Proof.
  apply (@has_reserve_const_candidate classes "std::vector<int>"
           std.vector_int [method [TSize] TVoid]);
    [reflexivity | reflexivity | repeat constructor].
Defined.
